(** * A portfolio site on a documentation framework: configuration and
      components

    The repository holds four kinds of code and data:
    - the build configuration module: the object [config], handed to the
      MDX plugin of the documentation framework;
    - the component module '@/components/Image': a wrapper around the
      framework's image element;
    - src/app/layout.config.tsx: the navigation constant [baseOptions];
    - the MDX content documents with their front-matter.

    JavaScript values are embedded as a small universe of run-time values
    (objects are finite maps from property names to values), and code that
    can raise a [TypeError] returns a [result]. *)

From Stdlib Require Import Floats.PrimFloat.
From Stdlib Require Import Strings.Ascii Strings.String.
From stdpp Require Import gmap strings list fin_maps.

Open Scope string_scope.

(** ** Regular expressions

    The pattern language of the one literal the build configuration
    holds, [/\.(png|jpe?g|gif|svg)$/i], with the backtracking matcher of
    ECMAScript: a pattern is run against the rest of the input with a
    continuation that decides whether what follows it matches.

    Input strings are sequences of bytes; every pattern character here is
    ASCII, and a character outside ASCII never canonicalizes to an ASCII
    one, so that bytes above 127 match no pattern character, as the
    code units they encode do not. *)

Module RegExp.

Inductive pattern :=
| Epsilon                        (* the empty alternative *)
| Char (c : ascii)               (* a literal or escaped character *)
| Seq (r1 r2 : pattern)          (* r1 r2 *)
| Alt (r1 r2 : pattern)          (* r1|r2 *)
| Group (r : pattern)            (* (r) *)
| Opt (r : pattern)              (* r? *)
| EndAnchor.                     (* $ *)

(** [Canonicalize] under the [i] flag: the upper-case form of the
    character. *)
Definition canonicalize (ignore_case : bool) (a : ascii) : ascii :=
  if ignore_case then
    let n := N_of_ascii a in
    if (97 <=? n)%N && (n <=? 122)%N then ascii_of_N (n - 32) else a
  else a.

Fixpoint run (ignore_case : bool) (r : pattern) (input : string)
    (k : string → bool) : bool :=
  match r with
  | Epsilon => k input
  | Char c =>
      match input with
      | String a rest =>
          if Ascii.eqb (canonicalize ignore_case a) (canonicalize ignore_case c)
          then k rest else false
      | EmptyString => false
      end
  | Seq r1 r2 => run ignore_case r1 input (λ rest, run ignore_case r2 rest k)
  | Alt r1 r2 => run ignore_case r1 input k || run ignore_case r2 input k
  | Group r => run ignore_case r input k
  | Opt r => run ignore_case r input k || k input
  | EndAnchor =>
      match input with
      | EmptyString => k input
      | String _ _ => false
      end
  end.

(** [RegExp.prototype.test] without the [g] and [y] flags: a match is
    looked for at every start index, from the first on. *)
Fixpoint test (ignore_case : bool) (r : pattern) (input : string) : bool :=
  run ignore_case r input (λ _, true)
  || match input with
     | String _ rest => test ignore_case r rest
     | EmptyString => false
     end.

(** The text of a pattern between the slashes of its literal. *)
Definition syntax_character (c : ascii) : bool :=
  bool_decide (c ∈ String.list_ascii_of_string "^$\.*+?()[]{}|/").

Fixpoint source (r : pattern) : string :=
  match r with
  | Epsilon => ""
  | Char c => if syntax_character c then String "\" (String c "") else String c ""
  | Seq r1 r2 => source r1 +:+ source r2
  | Alt r1 r2 => source r1 +:+ "|" +:+ source r2
  | Group r => "(" +:+ source r +:+ ")"
  | Opt r => source r +:+ "?"
  | EndAnchor => "$"
  end.

(** A word as the sequence of its characters. *)
Fixpoint word (w : string) : pattern :=
  match w with
  | String c EmptyString => Char c
  | String c rest => Seq (Char c) (word rest)
  | EmptyString => Epsilon
  end.

End RegExp.

Import RegExp.

(** ** Run-time values *)

Module JS.

(** What a JSX tag refers to: a host element such as [div], the fragment
    [<>...</>], or a component function imported from a module. *)
Inductive component :=
| NextImage. (* default export of 'next/image' *)

Inductive elem_type :=
| Host (tag : string)
| Fragment
| Comp (c : component).

(** The functions this repository defines as values of an object. *)
Inductive closure :=
| WebpackHook. (* [config => { ... }] of the build configuration *)

#[local] Set Warnings "-register-all".

(** A regular expression literal [/pattern/] or [/pattern/i] is carried
    as the parsed pattern and its flag. *)
Inductive value :=
| VUndefined
| VNull
| VBool (b : bool)
| VNum (n : float)
| VStr (s : string)
| VArr (xs : list value)
| VObj (fields : gmap string value)
| VRegExp (r : RegExp.pattern) (ignore_case : bool)
| VFun (f : closure)
| VElem (type : elem_type) (props : gmap string value).

Inductive error :=
| TypeError.

Inductive result (A : Type) :=
| Ok (a : A)
| Throw (e : error).
Arguments Ok {A} a.
Arguments Throw {A} e.

#[export] Instance result_bind : MBind result := λ A B k r,
  match r with
  | Ok a => k a
  | Throw e => Throw e
  end.

(** [o.k] on a value, also as one property of a destructuring pattern:
    [undefined] and [null] have no properties and reading one raises a
    [TypeError]; an object without the key gives [undefined]; the other
    values have none of the keys this program reads. *)
Definition get (o : value) (k : string) : result value :=
  match o with
  | VUndefined | VNull => Throw TypeError
  | VObj fields => Ok (default VUndefined (fields !! k))
  | VElem _ _ | VArr _ | VBool _ | VNum _ | VStr _ | VRegExp _ _ | VFun _ =>
      Ok VUndefined
  end.

(** A destructuring default [{ k = d }]: the default is taken when the
    property is missing or [undefined], and only then. *)
Definition get_default (o : value) (k : string) (d : value) : result value :=
  v ← get o k;
  match v with
  | VUndefined => Ok d
  | _ => Ok v
  end.

(** [a.push(x)] on the values of this universe, giving the array after
    the call. The universe is a small one: its arrays can always grow,
    and its only function is the webpack hook. There an array appends and
    every other value raises: [undefined] and [null] have no properties,
    a value without [push] has nothing to call, and the hook under the
    key [push] raises on a rule (see [webpack_on_rule] below). Objects
    that bring a [push] of their own, arrays that cannot grow, and arrays
    held in more than one place are the subject of [Store] below. *)
Definition push (a : value) (x : value) : result value :=
  match a with
  | VArr xs => Ok (VArr (xs ++ [x]))
  | _ => Throw TypeError
  end.

(** Objects are shared, values are not: a change made in place to a part
    of an object is written back into the field of its owner. Only that
    path to the part is followed: a value has no identity, and a second
    holder of the same part is not seen ([Store] below has identity). *)
Definition with_field (o : value) (k : string) (v : value) : value :=
  match o with
  | VObj fields => VObj (<[k := v]> fields)
  | _ => o
  end.

(** The JSX runtime: [jsx(type, props)], children being part of [props]. *)
Definition jsx (type : elem_type) (props : gmap string value) : value :=
  VElem type props.

End JS.

Import JS.

(** ** The component module '@/components/Image' *)

Module ImageComponent.

(** [interface ImageProps]: [width] and [height] are optional. *)
Record ImageProps := {
  src : string;
  alt : string;
  width : option float;
  height : option float
}.

(** The props object a caller builds from typed props: an omitted field is
    no key at all. *)
Definition opt_field (k : string) (o : option float)
    (m : gmap string value) : gmap string value :=
  match o with
  | Some n => <[k := VNum n]> m
  | None => m
  end.

Definition props_object (p : ImageProps) : value :=
  VObj (opt_field "width" (width p)
         (opt_field "height" (height p)
           {[ "src" := VStr (src p); "alt" := VStr (alt p) ]})).

(** [export function Image({ src, alt, width = 800, height = 600 })]. *)
Definition Image (props : value) : result value :=
  src ← get props "src";
  alt ← get props "alt";
  width ← get_default props "width" (VNum 800);
  height ← get_default props "height" (VNum 600);
  Ok (jsx (Host "div")
        {[ "style" := VObj {[ "width" := VStr "100%"; "maxWidth" := VStr "800px" ]};
           "children" :=
             jsx (Comp NextImage)
               {[ "src" := src;
                  "alt" := alt;
                  "width" := width;
                  "height" := height;
                  "style" := VObj {[ "width" := VStr "100%"; "height" := VStr "auto" ]};
                  "priority" := VBool true ]} ]}).

(** The image element inside what [Image] returns: the only child of the
    outer [div]. *)
Definition image_element (rendered : value) : option (gmap string value) :=
  match rendered with
  | VElem (Host "div") props =>
      match props !! "children" with
      | Some (VElem (Comp NextImage) img) => Some img
      | _ => None
      end
  | _ => None
  end.

End ImageComponent.

Import ImageComponent.

(** ** The build configuration module *)

Module NextConfig.

(** [/\.(png|jpe?g|gif|svg)$/i] *)
Definition asset_test : pattern :=
  Seq (Char ".")
   (Seq (Group (Alt (word "png")
                (Alt (Seq (Char "j") (Seq (Char "p") (Seq (Opt (Char "e")) (Char "g"))))
                (Alt (word "gif") (word "svg")))))
        EndAnchor).

(** The rule object the webpack hook adds. *)
Definition asset_rule : value :=
  VObj {[ "test" := VRegExp asset_test true;
          "type" := VStr "asset/resource";
          "generator" :=
            VObj {[ "filename" := VStr "static/media/[name].[hash][ext]" ]} ]}.

(** [webpack: config => { config.module.rules.push({...}); return config; }]
    The hook returns the configuration it was given, whose rule list has
    grown by one. This is the hook on values, which says what
    [config.module.rules] holds after the call; [Store.hook] below is the
    hook on a store of objects, where the array grows in place. *)
Definition webpack (config : value) : result value :=
  module ← get config "module";
  rules ← get module "rules";
  rules' ← push rules asset_rule;
  Ok (with_field config "module" (with_field module "rules" rules')).

Definition call (f : closure) (arg : value) : result value :=
  match f with
  | WebpackHook => webpack arg
  end.

(** [const config = { ... }] *)
Definition config : value :=
  VObj {[ "reactStrictMode" := VBool true;
          "images" :=
            VObj {[ "remotePatterns" := VArr [];
                    "unoptimized" := VBool true;
                    "dangerouslyAllowSVG" := VBool true;
                    "contentDispositionType" := VStr "attachment";
                    "contentSecurityPolicy" :=
                      VStr "default-src 'self'; script-src 'none'; sandbox;" ]};
          "webpack" := VFun WebpackHook ]}.

(** The argument of [createMDX]. *)
Definition mdx_options : value :=
  VObj {[ "options" :=
            VObj {[ "remarkPlugins" := VArr [];
                    "rehypePlugins" := VArr [];
                    "providerImportSource" := VStr "fumadocs-ui/mdx" ]} ]}.

Section Plugin.

(** [createMDX] of 'fumadocs-mdx/next' belongs to the documentation
    framework: it takes the plugin options and gives the function that
    wraps a build configuration. Either call may fail. *)
Variable createMDX : value → result (value → result value).

(** [const withMDX = createMDX({ options: {...} })] *)
Definition withMDX : result (value → result value) :=
  createMDX mdx_options.

(** The module from top to bottom; its one export is
    [export default withMDX(config)]. *)
Definition module_exports : result (gmap string value) :=
  wrap ← withMDX;
  exported ← wrap config;
  Ok {[ "default" := exported ]}.

End Plugin.

(** How the bundler reads one rule of [module.rules] for a resource: a
    rule whose [test] matches the path of the resource emits it under the
    file name pattern of the rule's generator. This is the bundler's part,
    stated here for rules of the shape the hook adds. *)
Definition emitted_as (rule : value) (resource : string) : option string :=
  match get rule "test", get rule "generator" ≫= (λ g, get g "filename") with
  | Ok (VRegExp r ignore_case), Ok (VStr filename) =>
      if test ignore_case r resource then Some filename else None
  | _, _ => None
  end.

End NextConfig.

Import NextConfig.

(** ** File names with an image extension

    The rule of the build configuration in words: a file name ends in one
    of five extensions, letter case set aside. These definitions follow
    that wording, not the regular expression. *)

Module AssetNames.

Definition to_lower (a : ascii) : ascii :=
  let n := N_of_ascii a in
  if (65 <=? n)%N && (n <=? 90)%N then ascii_of_N (n + 32) else a.

Fixpoint lower (s : string) : string :=
  match s with
  | String a rest => String (to_lower a) (lower rest)
  | EmptyString => EmptyString
  end.

(** [s] ends in [suffix]: [s] is [suffix], or what follows the first
    character of [s] ends in it. *)
Fixpoint ends_with (s suffix : string) : bool :=
  String.eqb s suffix
  || match s with
     | String _ rest => ends_with rest suffix
     | EmptyString => false
     end.

Definition image_extensions : list string :=
  [".png"; ".jpg"; ".jpeg"; ".gif"; ".svg"].

Definition has_image_extension (name : string) : bool :=
  existsb (ends_with (lower name)) image_extensions.

End AssetNames.

Import AssetNames.

(** ** src/app/layout.config.tsx *)

Module LayoutConfig.

(** [<Image src=... alt="Logo" width={32} height={32} className=... />],
    [Image] being the default export of 'next/image' in this module. *)
Definition logo : value :=
  jsx (Comp NextImage)
    {[ "src" := VStr "/docs/images/common/john-paul.jpg";
       "alt" := VStr "Logo";
       "width" := VNum 32;
       "height" := VNum 32;
       "className" := VStr "rounded-full" ]}.

(** [export const baseOptions: BaseLayoutProps = { nav: { title: <>...</> } }].
    The fragment has two children: the commented-out [svg] is an empty
    expression and leaves none, the text is trimmed of the line breaks
    around it. The [links] array is commented out. *)
Definition baseOptions : value :=
  VObj {[ "nav" :=
            VObj {[ "title" :=
                      jsx Fragment
                        {[ "children" :=
                             VArr [logo; VStr "John Paul's Portfolio"] ]} ]} ]}.

(** The module from top to bottom. *)
Definition module_exports : result (gmap string value) :=
  Ok {[ "baseOptions" := baseOptions ]}.

End LayoutConfig.

Import LayoutConfig.

(** ** The content documents *)

Module Content.

(** Front-matter is read by the documentation framework, not by code of
    this repository. Its reading is modelled for what the documents use: a
    block opened by a first line [---] and closed by the next [---], of
    lines [key: value] with plain text values. *)

Fixpoint split_colon (line : string) : option (string * string) :=
  match line with
  | EmptyString => None
  | String c rest =>
      if Ascii.eqb c ":" then Some ("", rest)
      else '(k, v) ← split_colon rest; Some (String c k, v)
  end.

Fixpoint trim_left (s : string) : string :=
  match s with
  | String c rest => if Ascii.eqb c " " then trim_left rest else s
  | EmptyString => s
  end.

Fixpoint read_block (lines : list string) (seen : gmap string string)
    : option (gmap string string) :=
  match lines with
  | [] => None
  | line :: rest =>
      if String.eqb line "---" then Some seen
      else
        match split_colon line with
        | Some (k, v) => read_block rest (<[k := trim_left v]> seen)
        | None => None
        end
  end.

Definition front_matter (lines : list string) : option (gmap string string) :=
  match lines with
  | first :: rest => if String.eqb first "---" then read_block rest ∅ else None
  | [] => None
  end.

(** The documents, each by the first lines of its text.
    content/docs/(projects)/finance-tracker.mdx holds three documents one
    after the other, each opening with a front-matter block of its own
    (lines 1, 212 and 471); the fourth is the portfolio blog page. *)
Definition finance_tracker : list string :=
  [ "---";
    "title: Finance Tracker";
    "description: A finance tracker using Hono API, Next.js, and PostgreSQL";
    "---";
    "";
    "import { Image } from '@/components/Image';" ].

Definition gig_canvas : list string :=
  [ "---";
    "title: CRM Gig Canvas";
    "description: Gig Canvas is a CRM for the Gig Economy";
    "---";
    "";
    "import { Image } from '@/components/Image';" ].

Definition pdf_summariser : list string :=
  [ "---";
    "title: AI PDF Summariser SaaS";
    "description: Summit is a SaaS web application that allows users to upload PDF documents and receive AI-generated, concise summaries.";
    "---";
    "";
    "import { Image } from '@/components/Image';" ].

Definition portfolio_blog : list string :=
  [ "---";
    "title: Portfolio Blog";
    "description: A portfolio website and blog for my portfolio";
    "---";
    "";
    "import { Image } from '@/components/Image';" ].

Definition documents : list (list string) :=
  [ finance_tracker; gig_canvas; pdf_summariser; portfolio_blog ].

(** A document is described when its front-matter has a title and a
    description, neither of them empty. *)
Definition described (doc : list string) : Prop :=
  ∃ fm title description,
    front_matter doc = Some fm
    ∧ fm !! "title" = Some title ∧ title ≠ ""
    ∧ fm !! "description" = Some description ∧ description ≠ "".

(** The same, as a check that runs. *)
Definition describedb (doc : list string) : bool :=
  match front_matter doc with
  | Some fm =>
      match fm !! "title", fm !! "description" with
      | Some title, Some description =>
          negb (String.eqb title "") && negb (String.eqb description "")
      | _, _ => false
      end
  | None => false
  end.

End Content.

Import Content.

(** ** Definitions used in the statements and proofs *)

(** What a destructuring default leaves of a property. *)
Definition defaulted (d : value) (o : option value) : value :=
  match o with
  | None | Some VUndefined => d
  | Some v => v
  end.

(** A pattern with its letters in lower case. *)
Fixpoint lower_pattern (r : pattern) : pattern :=
  match r with
  | Epsilon => Epsilon
  | Char c => Char (to_lower c)
  | Seq r1 r2 => Seq (lower_pattern r1) (lower_pattern r2)
  | Alt r1 r2 => Alt (lower_pattern r1) (lower_pattern r2)
  | Group r => Group (lower_pattern r)
  | Opt r => Opt (lower_pattern r)
  | EndAnchor => EndAnchor
  end.

(** The first [Image] of the finance tracker page. *)
Definition finance_tracker_image : ImageProps :=
  {| src := "/docs/images/finance-tracker/finance-tracker-03.jpg";
     alt := "Finance Tracker";
     width := Some 1000%float;
     height := Some 667%float |}.

(** A plugin that fails when it is created, and one that hands the
    configuration back as it is: two ways [createMDX] can behave. *)
Definition failing_plugin (_ : value) : result (value → result value) :=
  Throw TypeError.

Definition identity_plugin (_ : value) : result (value → result value) :=
  Ok (λ c, Ok c).

(** ** The webpack hook on a store of objects

    The hook changes an object in place, and who else holds that object
    is part of what it does. Here objects live in a store and are held by
    reference, as in the language. *)

Module Store.

(** A location of the store: the identity of an object. *)
Definition loc := nat.

(** What a variable or a property holds: a primitive value, or a
    reference to an object. *)
Inductive sval :=
| SUndefined
| SNull
| SBool (b : bool)
| SNum (n : float)
| SStr (s : string)
| SRef (l : loc).

(** An object is an ordinary object, an array with its elements, a
    regular expression or a function; functions go by a number. *)
Inductive kind :=
| KObject
| KArray (elems : list sval)
| KRegExp (r : pattern) (ignore_case : bool)
| KFunction (f : nat).

(** An object in the store: its kind, the properties the program gave
    it, and whether it can take a new element. What the language keeps
    on an object of its kind (the elements and the length of an array,
    the [lastIndex] of a regular expression) belongs to the kind, not to
    [own]. [growable] is [false] for an array that is frozen, sealed,
    closed to extension or of fixed length. *)
Record cell := Cell {
  kind_of : kind;
  own : gmap string sval;
  growable : bool
}.

(** What is thrown: the two errors of the language that the hook can
    meet, or whatever a called function throws. *)
Inductive exn :=
| TypeErr
| RangeErr
| Other (tag : nat).

Inductive outcome (A : Type) :=
| Done (a : A)
| Raise (e : exn).
Arguments Done {A} a.
Arguments Raise {A} e.

#[export] Instance outcome_bind : MBind outcome := λ A B k r,
  match r with
  | Done a => k a
  | Raise e => Raise e
  end.

(** [o.k] for the keys the hook reads, [module] and [rules]:
    [undefined] and [null] have no properties; an object gives its own
    property or [undefined]; the other primitives have neither key. A
    reference always points into the store; one that does not reads as
    [undefined]. Accessor properties, proxies and changes to the
    prototypes of objects are outside this model. *)
Definition read (s : gmap loc cell) (o : sval) (k : string) : outcome sval :=
  match o with
  | SUndefined | SNull => Raise TypeErr
  | SRef l =>
      match s !! l with
      | Some c => Done (default SUndefined (own c !! k))
      | None => Done SUndefined
      end
  | SBool _ | SNum _ | SStr _ => Done SUndefined
  end.

(** The greatest length of an array. *)
Definition max_length : N := 2 ^ 32 - 1.

(** A new object gets a location that is not in use. *)
Definition alloc (s : gmap loc cell) (c : cell) : gmap loc cell * loc :=
  let l := fresh (dom s) in (<[l := c]> s, l).

(** The object literal of the hook: three new objects, the regular
    expression, the generator and the rule that holds both. *)
Definition new_rule (s : gmap loc cell) : gmap loc cell * loc :=
  let '(s1, test) := alloc s (Cell (KRegExp asset_test true) ∅ true) in
  let '(s2, generator) :=
    alloc s1 (Cell KObject {[ "filename" := SStr "static/media/[name].[hash][ext]" ]} true) in
  alloc s2 (Cell KObject {[ "test" := SRef test;
                            "type" := SStr "asset/resource";
                            "generator" := SRef generator ]} true).

Section Calls.

(** What calling a function does to the store, given the function, its
    [this] and its arguments. The functions in a store are not this
    repository's: every statement below holds whatever they do. *)
Variable apply : nat → gmap loc cell → sval → list sval → outcome (gmap loc cell).

(** [a.push(x)], giving the store after the call. A [push] property of
    the object's own is what gets called, and a value that cannot be
    called raises; without one, an array has the built-in method, which
    appends in place, raises [TypeError] when the array cannot grow and
    [RangeError] at the greatest length; no other object has a [push]. *)
Definition call_push (s : gmap loc cell) (a : sval) (x : sval) : outcome (gmap loc cell) :=
  match a with
  | SRef l =>
      match s !! l with
      | Some c =>
          match own c !! "push" with
          | Some (SRef lf) =>
              match s !! lf with
              | Some (Cell (KFunction f) _ _) => apply f s a [x]
              | _ => Raise TypeErr
              end
          | Some _ => Raise TypeErr
          | None =>
              match kind_of c with
              | KArray elems =>
                  if negb (growable c) then Raise TypeErr
                  else if (max_length <=? N.of_nat (length elems))%N then Raise RangeErr
                  else Done (<[l := Cell (KArray (elems ++ [x])) (own c) (growable c)]> s)
              | _ => Raise TypeErr
              end
          end
      | None => Raise TypeErr
      end
  | _ => Raise TypeErr
  end.

(** [config => { config.module.rules.push({...}); return config; }]:
    the store after the call and the value returned, which is the
    reference the hook was given. *)
Definition hook (s : gmap loc cell) (config : sval) : outcome (gmap loc cell * sval) :=
  module ← read s config "module";
  rules ← read s module "rules";
  let '(s1, rule) := new_rule s in
  s2 ← call_push s1 rules (SRef rule);
  Done (s2, config).


End Calls.



(** A store whose functions all throw when called. *)
Definition no_calls (f : nat) (s : gmap loc cell) (this : sval) (args : list sval)
    : outcome (gmap loc cell) :=
  Raise (Other f).

(** [{ module: { rules: a }, other: a }] with [a = ['r0']]: the rule
    list is held in two places. *)
Definition shared_rules : gmap loc cell :=
  {[ 1 := Cell KObject {[ "module" := SRef 2; "other" := SRef 3 ]} true;
     2 := Cell KObject {[ "rules" := SRef 3 ]} true;
     3 := Cell (KArray [SStr "r0"]) ∅ true ]}.

(** The elements of the array a value refers to. *)
Definition elements_of (s : gmap loc cell) (o : sval) : option (list sval) :=
  match o with
  | SRef l =>
      match s !! l with
      | Some (Cell (KArray elems) _ _) => Some elems
      | _ => None
      end
  | _ => None
  end.

End Store.

Import Store.

(** ** The claim on the flags, word for word *)

(** A configuration holds the stated flags and no other: no key beside
    [images] and [webpack], the place of the file name pattern, and in
    [images] no key beside the three stated ones. *)
Definition only_stated_flags (cfg : value) : Prop :=
  ∃ fields images : gmap string value,
    cfg = VObj fields
    ∧ dom fields ⊆ {[ "images"; "webpack" ]}
    ∧ fields !! "images" = Some (VObj images)
    ∧ dom images ⊆ {[ "unoptimized"; "dangerouslyAllowSVG"; "contentSecurityPolicy" ]}.

(** ** The image uses of the documents *)

(** Every [<Image ... />] of the content documents, in the order of the
    text: twelve in content/docs/(projects)/finance-tracker.mdx (lines 18,
    198, 205, 246, 419, 428, 437, 446, 455, 464, 491 and 758) and the one of
    the portfolio blog page (line 16). The component is the wrapper
    [Image] of '@/components/Image'. *)
Module ContentImages.

Definition uses : list ImageProps :=
  [ {| src := "/docs/images/finance-tracker/finance-tracker-03.jpg";
       alt := "Finance Tracker"; width := Some 1000%float; height := Some 667%float |};
    {| src := "/docs/images/finance-tracker/finance-tracker-01.jpg";
       alt := "Finance Tracker"; width := Some 1000%float; height := Some 526%float |};
    {| src := "/docs/images/finance-tracker/finance-tracker-02.jpg";
       alt := "Finance Tracker"; width := Some 1000%float; height := Some 695%float |};
    {| src := "/docs/images/gig-canvas/main-image.jpg";
       alt := "Gig Canvas Architecture"; width := Some 800%float; height := Some 600%float |};
    {| src := "/docs/images/gig-canvas/gigcanvas-sign-in.jpg";
       alt := "Gig Canvas Architecture"; width := Some 1000%float; height := Some 569%float |};
    {| src := "/docs/images/gig-canvas/gigcanvas-01.jpg";
       alt := "Gig Canvas Architecture"; width := Some 1000%float; height := Some 634%float |};
    {| src := "/docs/images/gig-canvas/gigcanvas-clients.jpg";
       alt := "Gig Canvas Architecture"; width := Some 1000%float; height := Some 776%float |};
    {| src := "/docs/images/gig-canvas/gigcanvas-single-client.jpg";
       alt := "Gig Canvas Architecture"; width := Some 1000%float; height := Some 585%float |};
    {| src := "/docs/images/gig-canvas/gigcanvas-contacts.jpg";
       alt := "Gig Canvas Architecture"; width := Some 1000%float; height := Some 817%float |};
    {| src := "/docs/images/gig-canvas/gigcanvas-dm.jpg";
       alt := "Gig Canvas Architecture"; width := Some 1000%float; height := Some 530%float |};
    {| src := "/docs/images/ai-pdf-summariser/tooling.jpg";
       alt := "ai pdf summariser"; width := Some 800%float; height := Some 600%float |};
    {| src := "/docs/images/ai-pdf-summariser/pdf-summariser.jpg";
       alt := "ai pdf summariser"; width := Some 800%float; height := Some 600%float |};
    {| src := "/docs/images/mywebsite/my-website-collage.jpg";
       alt := "Portfolio Blog"; width := Some 800%float; height := Some 600%float |} ].

(** A use names both dimensions, has an alt text, and points to an image
    file under /docs/images/. *)
Definition complete (u : ImageProps) : bool :=
  bool_decide (is_Some (width u)) && bool_decide (is_Some (height u))
  && negb (String.eqb (alt u) "")
  && String.prefix "/docs/images/" (src u)
  && has_image_extension (src u).

End ContentImages.

Import ContentImages.


(** * Examples *)

Example Image_finance_tracker :
  Image (props_object finance_tracker_image)
    ≫= (λ e, Ok (image_element e ≫= λ img, Some (img !! "src", img !! "width", img !! "height")))
  = Ok (Some (Some (VStr "/docs/images/finance-tracker/finance-tracker-03.jpg"),
              Some (VNum 1000), Some (VNum 667))).
Proof. vm_compute. reflexivity. Qed.

Example Image_without_dimensions :
  Image (VObj {[ "src" := VStr "/a.jpg"; "alt" := VStr "A" ]})
    ≫= (λ e, Ok (image_element e ≫= λ img, Some (img !! "width", img !! "height")))
  = Ok (Some (Some (VNum 800), Some (VNum 600))).
Proof. vm_compute. reflexivity. Qed.

Example Image_undefined_width :
  Image (VObj {[ "src" := VStr "/a.jpg"; "width" := VUndefined; "height" := VNum 10 ]})
    ≫= (λ e, Ok (image_element e ≫= λ img, Some (img !! "alt", img !! "width", img !! "height")))
  = Ok (Some (Some VUndefined, Some (VNum 800), Some (VNum 10))).
Proof. vm_compute. reflexivity. Qed.

Example Image_null_props : Image VNull = Throw TypeError.
Proof. reflexivity. Qed.

Example asset_test_source : RegExp.source asset_test = "\.(png|jpe?g|gif|svg)$".
Proof. reflexivity. Qed.

Example asset_test_samples :
  map (RegExp.test true asset_test)
    ["a.png"; "a.PNG"; "a.JpEg"; "a.jpg"; "a.jpgx"; ".svg"; "svg"; "a.gif.txt"; "x.jpe"]
  = [true; true; true; true; false; true; false; false; false].
Proof. reflexivity. Qed.

Example asset_test_case_sensitive :
  map (RegExp.test false asset_test) ["a.png"; "a.PNG"] = [true; false].
Proof. reflexivity. Qed.

Example has_image_extension_samples :
  map has_image_extension
    ["a.png"; "a.PNG"; "a.JpEg"; "a.jpg"; "a.jpgx"; ".svg"; "svg"; "a.gif.txt"; "x.jpe"]
  = [true; true; true; true; false; true; false; false; false].
Proof. reflexivity. Qed.

Example webpack_sample :
  (c ← webpack (VObj {[ "mode" := VStr "production";
                        "module" := VObj {[ "rules" := VArr [VStr "r0"] ]} ]});
   m ← get c "module";
   get m "rules")
  = Ok (VArr [VStr "r0"; asset_rule]).
Proof. vm_compute. reflexivity. Qed.

Example webpack_no_module : webpack (VObj ∅) = Throw TypeError.
Proof. reflexivity. Qed.

Example webpack_on_rule : call WebpackHook asset_rule = Throw TypeError.
Proof. vm_compute. reflexivity. Qed.

Example emitted_as_samples :
  map (emitted_as asset_rule) ["/app/public/logo.SVG"; "/app/page.mdx"]
  = [Some "static/media/[name].[hash][ext]"; None].
Proof. vm_compute. reflexivity. Qed.

Example front_matter_finance_tracker :
  (fm ← front_matter finance_tracker; Some (fm !! "title", fm !! "description", fm !! "body"))
  = Some (Some "Finance Tracker",
          Some "A finance tracker using Hono API, Next.js, and PostgreSQL",
          None).
Proof. vm_compute. reflexivity. Qed.

Example front_matter_unclosed : front_matter ["---"; "title: T"] = None.
Proof. reflexivity. Qed.

Example front_matter_empty_title :
  describedb ["---"; "title:"; "description: D"; "---"] = false.
Proof. vm_compute. reflexivity. Qed.

Example hook_shared :
  ('(s', c) ← hook no_calls shared_rules (SRef 1);
   other ← read s' c "other";
   Done (c, other, length <$> elements_of s' other))
  = Done (SRef 1, SRef 3, Some 2).
Proof. vm_compute. reflexivity. Qed.

Example hook_frozen :
  hook no_calls
    (<[3 := Cell (KArray [SStr "r0"]) ∅ false]> shared_rules)
    (SRef 1)
  = Raise TypeErr.
Proof. vm_compute. reflexivity. Qed.

Example hook_own_push :
  hook no_calls
    (<[3 := Cell KObject {[ "push" := SRef 4 ]} true]>
       (<[4 := Cell (KFunction 7) ∅ true]> shared_rules))
    (SRef 1)
  = Raise (Other 7).
Proof. vm_compute. reflexivity. Qed.

Example hook_no_push :
  hook no_calls
    (<[3 := Cell KObject ∅ true]> shared_rules) (SRef 1)
  = Raise TypeErr.
Proof. vm_compute. reflexivity. Qed.

Example hook_undefined :
  hook no_calls shared_rules SUndefined
  = Raise TypeErr.
Proof. reflexivity. Qed.

(** * Properties *)

(** ** Reading objects *)

Lemma get_object fields k :
  get (VObj fields) k = Ok (default VUndefined (fields !! k)).
Proof. reflexivity. Qed.

Lemma bind_Ok {A B} (a : A) (k : A → result B) : (Ok a ≫= k) = k a.
Proof. reflexivity. Qed.

Lemma bind_inv {A B} (r : result A) (k : A → result B) e :
  (r ≫= k) = Throw e → r = Throw e ∨ ∃ a, r = Ok a ∧ k a = Throw e.
Proof.
  destruct r as [a|e']; cbn [mbind result_bind]; intros H.
  - right. by exists a.
  - left. f_equal. congruence.
Qed.

(** ** The image component *)

(** [Image] on any props object, in one equation: no property is
    required, and no value is inspected beyond the test for [undefined] of
    the two defaults. *)
Lemma Image_on_object (o : gmap string value) :
  Image (VObj o)
  = Ok (jsx (Host "div")
        {[ "style" := VObj {[ "width" := VStr "100%"; "maxWidth" := VStr "800px" ]};
           "children" :=
             jsx (Comp NextImage)
               {[ "src" := default VUndefined (o !! "src");
                  "alt" := default VUndefined (o !! "alt");
                  "width" := defaulted (VNum 800) (o !! "width");
                  "height" := defaulted (VNum 600) (o !! "height");
                  "style" := VObj {[ "width" := VStr "100%"; "height" := VStr "auto" ]};
                  "priority" := VBool true ]} ]}).
Proof.
  unfold Image, get_default, get. cbn [mbind result_bind].
  destruct (o !! "width") as [[]|]; destruct (o !! "height") as [[]|];
    reflexivity.
Qed.

Lemma props_object_fields p : ∃ o,
  props_object p = VObj o
  ∧ o !! "src" = Some (VStr (src p))
  ∧ o !! "alt" = Some (VStr (alt p))
  ∧ o !! "width" = VNum <$> width p
  ∧ o !! "height" = VNum <$> height p.
Proof.
  destruct p as [s a [w|] [h|]]; eexists; (split; [reflexivity|]);
    cbn [src alt width height opt_field fmap option_fmap option_map];
    repeat split; simplify_map_eq; reflexivity.
Qed.

(** The rendered tree for typed props, field by field. *)
Lemma Image_on_props p : ∃ outer img,
  Image (props_object p) = Ok (VElem (Host "div") outer)
  ∧ outer !! "style"
    = Some (VObj {[ "width" := VStr "100%"; "maxWidth" := VStr "800px" ]})
  ∧ outer !! "children" = Some (VElem (Comp NextImage) img)
  ∧ img !! "src" = Some (VStr (src p))
  ∧ img !! "alt" = Some (VStr (alt p))
  ∧ img !! "width" = Some (VNum (default 800%float (width p)))
  ∧ img !! "height" = Some (VNum (default 600%float (height p)))
  ∧ img !! "style"
    = Some (VObj {[ "width" := VStr "100%"; "height" := VStr "auto" ]})
  ∧ img !! "priority" = Some (VBool true).
Proof.
  destruct (props_object_fields p) as (o & -> & Hs & Ha & Hw & Hh).
  rewrite Image_on_object, Hs, Ha, Hw, Hh. unfold jsx. clear o Hs Ha Hw Hh.
  eexists _, {[ "src" := _; "alt" := _; "width" := _; "height" := _;
                "style" := _; "priority" := _ ]}.
  split; [reflexivity|].
  split; [by simplify_map_eq|]. split; [by simplify_map_eq|].
  destruct p as [s a [w|] [h|]];
    cbn [src alt width height fmap option_fmap option_map from_option id defaulted];
    repeat split; by simplify_map_eq.
Qed.

Lemma image_element_children outer img :
  outer !! "children" = Some (VElem (Comp NextImage) img) →
  image_element (VElem (Host "div") outer) = Some img.
Proof. intros H. unfold image_element. cbn. by rewrite H. Qed.

(** C1. For all props, [Image] returns an element whose image element
    receives exactly the source and the alt text that were passed, and
    exactly the width and the height that were passed, each when it was. *)
Theorem Image_forwards_props (p : ImageProps) :
  ∃ rendered img,
    Image (props_object p) = Ok rendered
    ∧ image_element rendered = Some img
    ∧ img !! "src" = Some (VStr (src p))
    ∧ img !! "alt" = Some (VStr (alt p))
    ∧ (∀ w, width p = Some w → img !! "width" = Some (VNum w))
    ∧ (∀ h, height p = Some h → img !! "height" = Some (VNum h)).
Proof.
  destruct (Image_on_props p)
    as (outer & img & HI & _ & Hc & Hs & Ha & Hw & Hh & _).
  exists (VElem (Host "div") outer), img.
  split; [exact HI|]. split; [by apply image_element_children|].
  split; [exact Hs|]. split; [exact Ha|].
  split; [intros w E; by rewrite Hw, E | intros h E; by rewrite Hh, E].
Qed.

(** The first image of the finance tracker page, through
    [Image_forwards_props]. *)
Lemma Image_forwards_props_witness :
  ∃ rendered img,
    Image (props_object finance_tracker_image) = Ok rendered
    ∧ image_element rendered = Some img
    ∧ img !! "src"
      = Some (VStr "/docs/images/finance-tracker/finance-tracker-03.jpg")
    ∧ img !! "alt" = Some (VStr "Finance Tracker")
    ∧ img !! "width" = Some (VNum 1000)
    ∧ img !! "height" = Some (VNum 667).
Proof.
  destruct (Image_forwards_props finance_tracker_image)
    as (rendered & img & HI & He & Hs & Ha & Hw & Hh).
  exists rendered, img.
  split; [exact HI|]. split; [exact He|]. split; [exact Hs|]. split; [exact Ha|].
  split; [apply Hw | apply Hh]; reflexivity.
Defined.

(** C9. For all props, an omitted width is rendered as 800 and an omitted
    height as 600 (a given one is kept); in every case the image element is
    the child of a [div] of style width 100% and maximum width 800px, has
    style width 100% and height auto, and is marked [priority]. *)
Theorem Image_defaults_and_frame (p : ImageProps) :
  ∃ outer img,
    Image (props_object p) = Ok (VElem (Host "div") outer)
    ∧ outer !! "style"
      = Some (VObj {[ "width" := VStr "100%"; "maxWidth" := VStr "800px" ]})
    ∧ outer !! "children" = Some (VElem (Comp NextImage) img)
    ∧ img !! "width" = Some (VNum (default 800%float (width p)))
    ∧ img !! "height" = Some (VNum (default 600%float (height p)))
    ∧ img !! "style"
      = Some (VObj {[ "width" := VStr "100%"; "height" := VStr "auto" ]})
    ∧ img !! "priority" = Some (VBool true).
Proof.
  destruct (Image_on_props p)
    as (outer & img & HI & Ho & Hc & _ & _ & Hw & Hh & Hst & Hp).
  exists outer, img. by repeat split.
Qed.

(** ** The asset rule *)

Lemma ends_with_suffix s suffix :
  ends_with s suffix = true ↔ ∃ before, s = before +:+ suffix.
Proof.
  induction s as [|a s IH]; cbn [ends_with].
  - rewrite orb_false_r, String.eqb_eq. split.
    + intros <-. by exists "".
    + intros [[|b before] H]; [done | discriminate H].
  - rewrite orb_true_iff, String.eqb_eq, IH. split.
    + intros [<- | [before ->]]; [by exists "" | by exists (String a before)].
    + intros [[|b before] H]; [by left | right].
      injection H as -> ->. by exists before.
Qed.

Lemma canonicalize_to_lower a :
  canonicalize true (to_lower a) = canonicalize true a.
Proof. destruct a as [[] [] [] [] [] [] [] []]; reflexivity. Qed.

Lemma to_lower_canonicalize a : to_lower (canonicalize true a) = to_lower a.
Proof. destruct a as [[] [] [] [] [] [] [] []]; reflexivity. Qed.

(** Two characters have one canonical form exactly when they have one
    lower-case form. *)
Lemma canonical_eqb a c :
  Ascii.eqb (canonicalize true a) (canonicalize true c)
  = Ascii.eqb (to_lower a) (to_lower c).
Proof.
  destruct (Ascii.eqb_spec (canonicalize true a) (canonicalize true c)) as [E|E];
  destruct (Ascii.eqb_spec (to_lower a) (to_lower c)) as [F|F]; try reflexivity;
    exfalso; apply F || apply E.
  - by rewrite <- (to_lower_canonicalize a), E, to_lower_canonicalize.
  - by rewrite <- (canonicalize_to_lower a), F, canonicalize_to_lower.
Qed.

(** Matching under the [i] flag is matching the lower-case pattern on
    the lower-case input, letter case observed. *)
Lemma run_ignore_case r : ∀ input k k',
  (∀ rest, k rest = k' (lower rest)) →
  run true r input k = run false (lower_pattern r) (lower input) k'.
Proof.
  induction r as [|c|r1 IH1 r2 IH2|r1 IH1 r2 IH2|r IH|r IH|];
    intros input k k' Hk; cbn [run lower_pattern].
  - apply Hk.
  - destruct input as [|a rest]; cbn [lower]; [done|].
    rewrite canonical_eqb. cbn [canonicalize].
    by rewrite Hk.
  - apply IH1. intros rest. by apply IH2.
  - by rewrite (IH1 _ _ k'), (IH2 _ _ k').
  - by apply IH.
  - by rewrite (IH _ _ k'), Hk.
  - destruct input; cbn [lower]; [apply Hk | done].
Qed.

Ltac split_input :=
  match goal with
  | |- context [match ?s with EmptyString => _ | String _ _ => _ end] =>
      is_var s; destruct s
  | |- context [Ascii.eqb ?a ?c] =>
      is_var a; destruct (Ascii.eqb_spec a c) as [->|?]
  end.

(** Letter case observed, the pattern matches at the start of an input
    exactly when the input is one of the five extensions. *)
Lemma run_asset_test_exact t :
  run false asset_test t (λ _, true) = existsb (String.eqb t) image_extensions.
Proof.
  unfold asset_test, image_extensions. cbn [word run existsb canonicalize].
  repeat (split_input; cbn [run String.eqb]; try reflexivity).
Qed.

Lemma run_asset_test input :
  run true asset_test input (λ _, true)
  = existsb (String.eqb (lower input)) image_extensions.
Proof.
  rewrite (run_ignore_case asset_test input _ (λ _, true)) by done.
  apply run_asset_test_exact.
Qed.

Lemma existsb_orb {A} (f g : A → bool) l :
  existsb (λ x, f x || g x) l = existsb f l || existsb g l.
Proof.
  induction l as [|x l IH]; cbn [existsb]; [done|].
  rewrite IH. destruct (f x), (g x), (existsb f l); reflexivity.
Qed.

(** The regular expression of the rule accepts the names the wording
    describes. *)
Lemma asset_test_extension name :
  test true asset_test name = has_image_extension name.
Proof.
  unfold has_image_extension.
  induction name as [|a name IH].
  - reflexivity.
  - cbn [test lower ends_with]. rewrite IH, run_asset_test.
    cbn [lower]. symmetry.
    apply (existsb_orb (String.eqb _) (λ e, ends_with (lower name) e)).
Qed.

Lemma asset_rule_fields :
  get asset_rule "test" = Ok (VRegExp asset_test true)
  ∧ get asset_rule "type" = Ok (VStr "asset/resource")
  ∧ (get asset_rule "generator" ≫= λ g, get g "filename")
    = Ok (VStr "static/media/[name].[hash][ext]").
Proof. repeat split; vm_compute; reflexivity. Qed.

(** The hook on any configuration that has [module.rules]: the rule goes
    to the end of the list, and nothing else changes. *)
Lemma webpack_appends (c m : gmap string value) (rs : list value) :
  webpack (VObj (<["module" := VObj (<["rules" := VArr rs]> m)]> c))
  = Ok (VObj (<["module" := VObj (<["rules" := VArr (rs ++ [asset_rule])]> m)]> c)).
Proof.
  unfold webpack.
  rewrite get_object, lookup_insert_eq, bind_Ok. cbn [from_option id].
  rewrite get_object, lookup_insert_eq, bind_Ok. cbn [from_option id push with_field].
  by rewrite bind_Ok, !insert_insert_eq.
Qed.

(** The configuration has a flag that is none of the stated ones,
    [reactStrictMode]: it does not hold the stated flags and no other. *)
Lemma config_not_only_stated_flags : ¬ only_stated_flags config.
Proof.
  intros (fields & images & Hc & Hd & _).
  assert ("reactStrictMode" ∈ dom fields) as Hin.
  { injection Hc as <-. apply elem_of_dom. eexists. apply lookup_insert_eq. }
  apply Hd, elem_of_union in Hin as [Hin | Hin];
    apply elem_of_singleton in Hin; discriminate Hin.
Qed.

(** C2, amended. The configuration object that the module hands to the
    MDX plugin for its default export holds the stated flags with the
    stated values: [images.unoptimized] and [images.dangerouslyAllowSVG]
    are [true], [images.contentSecurityPolicy] is the stated header
    string, and the rule its webpack hook adds to any rule list names the
    stated file name pattern. Besides them it holds [reactStrictMode:
    true], [images.remotePatterns: []] and
    [images.contentDispositionType: 'attachment'], and no other key. *)
Theorem config_flags (createMDX : value → result (value → result value)) :
  ∃ fields images : gmap string value,
    NextConfig.module_exports createMDX
    = (wrap ← createMDX mdx_options;
       exported ← wrap (VObj fields);
       Ok {[ "default" := exported ]})
    ∧ dom fields = {[ "reactStrictMode"; "images"; "webpack" ]}
    ∧ fields !! "reactStrictMode" = Some (VBool true)
    ∧ fields !! "images" = Some (VObj images)
    ∧ fields !! "webpack" = Some (VFun WebpackHook)
    ∧ dom images = {[ "remotePatterns"; "unoptimized"; "dangerouslyAllowSVG";
                      "contentDispositionType"; "contentSecurityPolicy" ]}
    ∧ images !! "remotePatterns" = Some (VArr [])
    ∧ images !! "unoptimized" = Some (VBool true)
    ∧ images !! "dangerouslyAllowSVG" = Some (VBool true)
    ∧ images !! "contentDispositionType" = Some (VStr "attachment")
    ∧ images !! "contentSecurityPolicy"
      = Some (VStr "default-src 'self'; script-src 'none'; sandbox;")
    ∧ ∀ (c m : gmap string value) (rs : list value), ∃ rule,
        (c' ← call WebpackHook
                 (VObj (<["module" := VObj (<["rules" := VArr rs]> m)]> c));
         m' ← get c' "module";
         get m' "rules")
        = Ok (VArr (rs ++ [rule]))
        ∧ (get rule "generator" ≫= λ g, get g "filename")
          = Ok (VStr "static/media/[name].[hash][ext]").
Proof.
  eexists {[ "reactStrictMode" := _; "images" := _; "webpack" := _ ]},
          {[ "remotePatterns" := _; "unoptimized" := _; "dangerouslyAllowSVG" := _;
             "contentDispositionType" := _; "contentSecurityPolicy" := _ ]}.
  split; [reflexivity|].
  split; [rewrite !dom_insert_L, dom_singleton_L; set_solver|].
  split; [by simplify_map_eq|]. split; [by simplify_map_eq|].
  split; [by simplify_map_eq|].
  split; [rewrite !dom_insert_L, dom_singleton_L; set_solver|].
  do 5 (split; [by simplify_map_eq|]).
  intros c m rs. exists asset_rule. split; [|apply asset_rule_fields].
  cbn [call]. rewrite webpack_appends, bind_Ok, get_object, lookup_insert_eq, bind_Ok.
  cbn [from_option id]. by rewrite get_object, lookup_insert_eq.
Qed.

(** The check [has_image_extension] says what its name says. *)
Lemma has_image_extension_suffix name :
  has_image_extension name = true
  ↔ ∃ ext before, ext ∈ image_extensions ∧ lower name = before +:+ ext.
Proof.
  unfold has_image_extension. rewrite existsb_exists. split.
  - intros (ext & Hin & He). apply ends_with_suffix in He as [before He].
    exists ext, before. split; [by apply list_elem_of_In | exact He].
  - intros (ext & before & Hin & He). exists ext.
    split; [by apply list_elem_of_In|]. apply ends_with_suffix. by exists before.
Qed.

(** C3. The rule the webpack hook adds emits a file under
    'static/media/[name].[hash][ext]' if and only if the name of the file
    ends in .png, .jpg, .jpeg, .gif or .svg, letter case set aside; its
    test is the regular expression [/\.(png|jpe?g|gif|svg)$/i]. *)
Theorem asset_rule_image_extensions :
  (∀ (c m : gmap string value) (rs : list value),
      call WebpackHook (VObj (<["module" := VObj (<["rules" := VArr rs]> m)]> c))
      = Ok (VObj (<["module" := VObj (<["rules" := VArr (rs ++ [asset_rule])]> m)]> c)))
  ∧ get asset_rule "test" = Ok (VRegExp asset_test true)
  ∧ ∀ file : string,
      test true asset_test file = has_image_extension file
      ∧ emitted_as asset_rule file
        = (if has_image_extension file
           then Some "static/media/[name].[hash][ext]" else None)
      ∧ (emitted_as asset_rule file = Some "static/media/[name].[hash][ext]"
         ↔ ∃ ext before, ext ∈ image_extensions ∧ lower file = before +:+ ext).
Proof.
  destruct asset_rule_fields as (Ht & _ & Hf).
  split; [exact webpack_appends|]. split; [exact Ht|].
  intros file.
  assert (emitted_as asset_rule file
          = (if has_image_extension file
             then Some "static/media/[name].[hash][ext]" else None)) as He.
  { unfold emitted_as. rewrite Ht, Hf. by rewrite asset_test_extension. }
  split; [apply asset_test_extension|]. split; [exact He|].
  rewrite He, <- has_image_extension_suffix.
  destruct (has_image_extension file); split; done.
Qed.

(** ** The plugin *)

(** C6. Whatever the plugin does, the module's default export is the
    result of wrapping [config] with the plugin created from the options
    [remarkPlugins: []], [rehypePlugins: []] and
    [providerImportSource: 'fumadocs-ui/mdx'], and from nothing else. *)
Theorem default_export_wraps_config
    (createMDX : value → result (value → result value)) :
  ∃ opts : gmap string value,
    NextConfig.module_exports createMDX
    = (wrap ← createMDX (VObj {[ "options" := VObj opts ]});
       exported ← wrap config;
       Ok {[ "default" := exported ]})
    ∧ opts !! "remarkPlugins" = Some (VArr [])
    ∧ opts !! "rehypePlugins" = Some (VArr [])
    ∧ opts !! "providerImportSource" = Some (VStr "fumadocs-ui/mdx")
    ∧ dom opts = {[ "remarkPlugins"; "rehypePlugins"; "providerImportSource" ]}.
Proof.
  exists {[ "remarkPlugins" := VArr []; "rehypePlugins" := VArr [];
            "providerImportSource" := VStr "fumadocs-ui/mdx" ]}.
  split; [reflexivity|].
  split; [by simplify_map_eq|]. split; [by simplify_map_eq|].
  split; [by simplify_map_eq|].
  rewrite !dom_insert_L, dom_singleton_L. set_solver.
Qed.

(** ** The navigation constant *)

(** C5. The nav title of [baseOptions] is a fragment of two children: an
    image element of source '/docs/images/common/john-paul.jpg', width 32
    and height 32, and then the text "John Paul's Portfolio". *)
Theorem nav_title_logo_and_text :
  ∃ nav logo_props,
    get baseOptions "nav" = Ok nav
    ∧ get nav "title"
      = Ok (VElem Fragment
              {[ "children" :=
                   VArr [VElem (Comp NextImage) logo_props;
                         VStr "John Paul's Portfolio"] ]})
    ∧ logo_props !! "src" = Some (VStr "/docs/images/common/john-paul.jpg")
    ∧ logo_props !! "width" = Some (VNum 32)
    ∧ logo_props !! "height" = Some (VNum 32).
Proof.
  eexists (VObj {[ "title" := _ ]}),
          {[ "src" := _; "alt" := _; "width" := _; "height" := _; "className" := _ ]}.
  unfold baseOptions, logo, jsx.
  split; [by rewrite get_object, lookup_singleton_eq|].
  split; [by rewrite get_object, lookup_singleton_eq|].
  repeat split; by simplify_map_eq.
Qed.

(** C10. [baseOptions] has the one field [nav], and [nav] the one field
    [title]: there is no [links] field, and reading it gives [undefined]. *)
Theorem baseOptions_only_nav_title :
  ∃ fields nav : gmap string value,
    baseOptions = VObj fields
    ∧ dom fields = {[ "nav" ]}
    ∧ fields !! "nav" = Some (VObj nav)
    ∧ dom nav = {[ "title" ]}
    ∧ fields !! "links" = None
    ∧ get baseOptions "links" = Ok VUndefined.
Proof.
  do 2 eexists. split; [reflexivity|].
  split; [apply dom_singleton_L|].
  split; [apply lookup_singleton_eq|].
  split; [apply dom_singleton_L|].
  split; [by apply lookup_singleton_ne|].
  unfold baseOptions. by rewrite get_object, lookup_singleton_ne.
Qed.

(** ** The content documents *)

Lemma describedb_described doc : describedb doc = true → described doc.
Proof.
  unfold describedb, described. intros H.
  destruct (front_matter doc) as [fm|]; [|discriminate H].
  destruct (fm !! "title") as [title|] eqn:Ht; [|discriminate H].
  destruct (fm !! "description") as [description|] eqn:Hd; [|discriminate H].
  apply andb_true_iff in H as [H1 H2].
  exists fm, title, description.
  split; [reflexivity|]. split; [exact Ht|].
  split; [intros ->; discriminate H1|].
  split; [exact Hd|]. intros ->. discriminate H2.
Qed.

(** C4. Every content document has a front-matter with a title and a
    description, neither of them empty. *)
Theorem documents_described : Forall described documents.
Proof.
  assert (forallb describedb documents = true) as H by (vm_compute; reflexivity).
  rewrite forallb_forall in H.
  apply Forall_forall. intros doc Hin.
  apply describedb_described, H. by apply list_elem_of_In.
Qed.

(** ** No error path *)

(** C7. [Image] returns an element for every props object, whatever its
    fields; the module of the navigation constant evaluates to its export;
    and when the module of the build configuration fails, the failure is
    that of the plugin: of creating it, or of its call on [config]. *)
Theorem no_error_path :
  (∀ o : gmap string value, ∃ outer img,
      Image (VObj o) = Ok (VElem (Host "div") outer)
      ∧ image_element (VElem (Host "div") outer) = Some img)
  ∧ LayoutConfig.module_exports = Ok {[ "baseOptions" := baseOptions ]}
  ∧ (∀ createMDX e,
      NextConfig.module_exports createMDX = Throw e →
      createMDX mdx_options = Throw e
      ∨ ∃ wrap, createMDX mdx_options = Ok wrap ∧ wrap config = Throw e)
  ∧ (∀ createMDX wrap exported,
      createMDX mdx_options = Ok wrap → wrap config = Ok exported →
      NextConfig.module_exports createMDX = Ok {[ "default" := exported ]}).
Proof.
  split; [|split; [reflexivity|split]].
  - intros o. rewrite Image_on_object. unfold jsx.
    eexists _, _. split; [reflexivity|].
    apply image_element_children. by simplify_map_eq.
  - intros createMDX e H. unfold NextConfig.module_exports, withMDX in H.
    apply bind_inv in H as [H | (wrap & Hw & H)]; [by left|].
    right. exists wrap. split; [exact Hw|].
    apply bind_inv in H as [H | (exported & _ & H)]; [exact H | discriminate H].
  - intros createMDX wrap exported Hw He.
    unfold NextConfig.module_exports, withMDX. by rewrite Hw, bind_Ok, He.
Qed.

(** The two ways a plugin can behave, through [no_error_path]. *)
Lemma no_error_path_witness :
  (failing_plugin mdx_options = Throw TypeError
   ∨ ∃ wrap, failing_plugin mdx_options = Ok wrap
             ∧ wrap config = Throw TypeError)
  ∧ NextConfig.module_exports identity_plugin = Ok {[ "default" := config ]}.
Proof.
  destruct no_error_path as (_ & _ & Hthrow & Hok). split.
  - apply Hthrow. reflexivity.
  - apply (Hok identity_plugin (λ c, Ok c)); reflexivity.
Defined.

(** * Further properties *)

(** ** The webpack hook on a store *)




Section Hook.

Variable apply : nat → gmap loc cell → sval → list sval → outcome (gmap loc cell).









End Hook.




(** ** The image component on any value *)

(** X4. [Image] raises exactly when its props are [undefined] or [null];
    on every other value it returns the [div] with the image element as
    its child. *)
Theorem Image_throws_iff (props : value) :
  ((∃ e, Image props = Throw e) ↔ props = VUndefined ∨ props = VNull)
  ∧ ((∃ outer img,
        Image props = Ok (VElem (Host "div") outer)
        ∧ outer !! "children" = Some (VElem (Comp NextImage) img))
     ↔ props ≠ VUndefined ∧ props ≠ VNull).
Proof.
  split; split.
  - intros [e H]. destruct props; try (by left); try (by right);
      try (rewrite Image_on_object in H); discriminate H.
  - intros [-> | ->]; by exists TypeError.
  - intros (outer & img & H & _). split; intros ->; discriminate H.
  - intros [Hu Hn].
    assert (∃ o, Image props = Image (VObj o)) as [o ->].
    { destruct props; try done; try (by exists ∅); by eexists. }
    rewrite Image_on_object. unfold jsx. eexists _, _. split; [reflexivity|].
    by simplify_map_eq.
Qed.

(** X5. What [Image] returns depends on four properties of its props
    only: two props objects that agree on [src], [alt], [width] and
    [height] give the same element, whatever else they hold. *)
Theorem Image_reads_four_props (o1 o2 : gmap string value) :
  o1 !! "src" = o2 !! "src" → o1 !! "alt" = o2 !! "alt" →
  o1 !! "width" = o2 !! "width" → o1 !! "height" = o2 !! "height" →
  Image (VObj o1) = Image (VObj o2).
Proof. intros Hs Ha Hw Hh. by rewrite !Image_on_object, Hs, Ha, Hw, Hh. Qed.

(** A class name and children given to the wrapper are dropped. *)
Lemma Image_reads_four_props_witness :
  Image (VObj {[ "src" := VStr "/a.jpg"; "className" := VStr "rounded"; "children" := VStr "x" ]})
  = Image (VObj {[ "src" := VStr "/a.jpg" ]}).
Proof. apply Image_reads_four_props; vm_compute; reflexivity. Defined.

(** X6. The image element has the six properties [src], [alt], [width],
    [height], [style] and [priority] and no other. A missing [src] or
    [alt] is passed on as [undefined]. A dimension is replaced by its
    default (800, 600) when it is missing or [undefined], and only then:
    [null] and every other value are passed on as they are. *)
Theorem Image_default_only_for_undefined (o : gmap string value) :
  ∃ outer img,
    Image (VObj o) = Ok (VElem (Host "div") outer)
    ∧ outer !! "children" = Some (VElem (Comp NextImage) img)
    ∧ dom img = {[ "src"; "alt"; "width"; "height"; "style"; "priority" ]}
    ∧ img !! "src" = Some (default VUndefined (o !! "src"))
    ∧ img !! "alt" = Some (default VUndefined (o !! "alt"))
    ∧ (∀ v, o !! "width" = Some v → v ≠ VUndefined → img !! "width" = Some v)
    ∧ (o !! "width" = None ∨ o !! "width" = Some VUndefined →
       img !! "width" = Some (VNum 800))
    ∧ (∀ v, o !! "height" = Some v → v ≠ VUndefined → img !! "height" = Some v)
    ∧ (o !! "height" = None ∨ o !! "height" = Some VUndefined →
       img !! "height" = Some (VNum 600)).
Proof.
  rewrite Image_on_object. unfold jsx.
  eexists _, {[ "src" := _; "alt" := _; "width" := _; "height" := _;
                "style" := _; "priority" := _ ]}.
  split; [reflexivity|]. split; [by simplify_map_eq|].
  split; [rewrite !dom_insert_L, dom_singleton_L; set_solver|].
  split; [by simplify_map_eq|]. split; [by simplify_map_eq|].
  split; [|split; [|split]].
  - intros v Hv Hne. rewrite Hv. simplify_map_eq. by destruct v.
  - intros [H | H]; rewrite H; by simplify_map_eq.
  - intros v Hv Hne. rewrite Hv. simplify_map_eq. by destruct v.
  - intros [H | H]; rewrite H; by simplify_map_eq.
Qed.

(** A [null] width stays [null], an [undefined] height becomes 600. *)
Lemma Image_default_only_for_undefined_witness :
  ∃ outer img,
    Image (VObj {[ "width" := VNull; "height" := VUndefined ]})
    = Ok (VElem (Host "div") outer)
    ∧ outer !! "children" = Some (VElem (Comp NextImage) img)
    ∧ img !! "src" = Some VUndefined
    ∧ img !! "width" = Some VNull
    ∧ img !! "height" = Some (VNum 600).
Proof.
  destruct (Image_default_only_for_undefined {[ "width" := VNull; "height" := VUndefined ]})
    as (outer & img & HI & Hc & _ & Hs & _ & Hw & _ & _ & Hh).
  exists outer, img. split; [exact HI|]. split; [exact Hc|].
  split; [exact Hs|]. split.
  - apply Hw; [vm_compute; reflexivity | discriminate].
  - apply Hh. right. vm_compute. reflexivity.
Defined.

(** ** The asset rule on paths *)

Lemma lower_app s t : lower (s +:+ t) = lower s +:+ lower t.
Proof. induction s as [|a s IH]; simpl; [done | by rewrite IH]. Qed.

(** No extension holds a slash. *)
Lemma slash_not_extension before after :
  existsb (String.eqb (before +:+ String "/" after)) image_extensions = false.
Proof.
  unfold image_extensions. cbn [existsb].
  do 6 (try destruct before as [|? before]); simpl;
    repeat (match goal with
            | |- context [Ascii.eqb ?a ?c] =>
                is_var a; destruct (Ascii.eqb_spec a c) as [->|?]
            end; cbn [String.eqb]);
    try reflexivity.
Qed.

Lemma run_asset_test_slash before after :
  run true asset_test (before +:+ String "/" after) (λ _, true) = false.
Proof.
  rewrite run_asset_test, lower_app. cbn [lower].
  change (to_lower "/") with "/"%char. apply slash_not_extension.
Qed.

(** X7. The rule decides on the last segment of a path: whatever stands
    in front of a slash, directories named like image files included,
    changes nothing. *)
Theorem asset_test_ignores_directories dir name :
  test true asset_test (dir +:+ String "/" name) = test true asset_test name.
Proof.
  induction dir as [|a dir IH].
  - pose proof (run_asset_test_slash "" name) as H.
    change ("" +:+ String "/" name) with (String "/" name) in *.
    cbn [test]. by rewrite H.
  - pose proof (run_asset_test_slash (String a dir) name) as H.
    change (String a dir +:+ String "/" name)
      with (String a (dir +:+ String "/" name)) in *.
    cbn [test]. by rewrite H, IH.
Qed.

(** ** The image uses of the documents *)

Lemma complete_true u :
  complete u = true →
  ∃ w h, width u = Some w ∧ height u = Some h ∧ alt u ≠ ""
    ∧ String.prefix "/docs/images/" (src u) = true
    ∧ has_image_extension (src u) = true.
Proof.
  unfold complete. rewrite !andb_true_iff, !bool_decide_eq_true, negb_true_iff.
  intros [[[[[w Ew] [h Eh]] Ha] Hp] He].
  exists w, h. repeat split; try done. intros E. by rewrite E in Ha.
Qed.

(** X8. Every use of [Image] in the content documents names a width
    and a height, has a non-empty alt text and a source under
    /docs/images/ with an image extension; rendered, it carries its own
    source and dimensions, so that no document relies on the defaults. *)
Theorem uses_complete :
  Forall (λ u, ∃ w h rendered img,
      width u = Some w ∧ height u = Some h
      ∧ alt u ≠ ""
      ∧ String.prefix "/docs/images/" (src u) = true
      ∧ has_image_extension (src u) = true
      ∧ Image (props_object u) = Ok rendered
      ∧ image_element rendered = Some img
      ∧ img !! "src" = Some (VStr (src u))
      ∧ img !! "width" = Some (VNum w)
      ∧ img !! "height" = Some (VNum h)) uses.
Proof.
  assert (forallb complete uses = true) as H by (vm_compute; reflexivity).
  rewrite forallb_forall in H.
  apply Forall_forall. intros u Hin.
  apply list_elem_of_In, H, complete_true in Hin
    as (w & h & Ew & Eh & Ha & Hp & He).
  destruct (Image_on_props u) as (outer & img & HI & _ & Hc & Hs & _ & Hw & Hh & _).
  exists w, h, (VElem (Host "div") outer), img.
  rewrite Ew in Hw. rewrite Eh in Hh.
  repeat split; try done. by apply image_element_children.
Qed.
